(** * The login form and the login page of the SENAC aptitude front end

    A shallow embedding of [components/auth/login-form.tsx] ([LoginForm] and
    its [handleSubmit]) and of [app/login/page.tsx] ([LoginPage]).

    - JSX is embedded as a first-order element tree ([Element]); components of
      the UI kit ([Input], [Button], [Checkbox], [Label], [Card], ...) stay
      symbolic nodes carrying the props they are given.
    - Event handlers are programs of a small free monad ([Prog]) whose
      operations are the effects the handlers perform: [e.preventDefault()],
      the four [useState] setters, the call of the injected [onSubmit] and
      [await].  [try ... finally] is a combinator on such programs.
    - The runtime around the component (React committing state, the browser
      delivering events to enabled controls, promises settling) is a
      deterministic step function on a [World]. *)

From Stdlib Require Import String List Bool Arith Lia.
Import ListNotations.
Local Open Scope string_scope.
Local Open Scope list_scope.

(** ** Data *)

(** The object literal [{ email, password, remember }] handed to [onSubmit]. *)
Record Credentials : Type := mkCredentials {
  cred_email : string;
  cred_password : string;
  cred_remember : bool
}.

(** The four [React.useState] cells of [LoginForm]. *)
Record FormState : Type := mkFormState {
  isLoading : bool;
  email : string;
  password : string;
  remember : bool
}.

(** Promises returned by [onSubmit] are named by the order of their creation. *)
Definition Promise : Type := nat.

Section Model.

(** The value a promise is rejected with (any JavaScript value). *)
Variable Reason : Type.

(** [cn] of [@/lib/utils] joins class names; its code is not part of the
    sources at hand, so it is a parameter. *)
Variable cn : string -> option string -> string.

(** The syntax check a browser applies to the value of an
    [<input type="email">]. *)
Variable email_syntax : string -> bool.

(** How a promise settles. *)
Inductive Outcome : Type :=
| Fulfilled
| Rejected (e : Reason).

(** The injected [onSubmit]: called on the credentials it either throws
    before returning ([Some e]) or returns a promise ([None]) that the
    environment settles later. *)
Definition Handler : Type := Credentials -> option Reason.

(** ** Handler programs *)

Inductive Prog (A : Type) : Type :=
| Ret (a : A)
| Throw (e : Reason)
| PreventDefault (k : Prog A)
| SetIsLoading (b : bool) (k : Prog A)
| SetEmail (v : string) (k : Prog A)
| SetPassword (v : string) (k : Prog A)
| SetRemember (b : bool) (k : Prog A)
| Call (f : Handler) (data : Credentials) (k : Reason + Promise -> Prog A)
| Await (p : Promise) (k : Outcome -> Prog A).

Arguments Ret {A} a.
Arguments Throw {A} e.
Arguments PreventDefault {A} k.
Arguments SetIsLoading {A} b k.
Arguments SetEmail {A} v k.
Arguments SetPassword {A} v k.
Arguments SetRemember {A} b k.
Arguments Call {A} f data k.
Arguments Await {A} p k.

Fixpoint bind {A B : Type} (m : Prog A) (f : A -> Prog B) : Prog B :=
  match m with
  | Ret a => f a
  | Throw e => Throw e
  | PreventDefault k => PreventDefault (bind k f)
  | SetIsLoading b k => SetIsLoading b (bind k f)
  | SetEmail v k => SetEmail v (bind k f)
  | SetPassword v k => SetPassword v (bind k f)
  | SetRemember b k => SetRemember b (bind k f)
  | Call g data k => Call g data (fun r => bind (k r) f)
  | Await p k => Await p (fun o => bind (k o) f)
  end.

Notation "x <- m ;; k" := (bind m (fun x => k))
  (at level 61, m at next level, right associativity).
Notation "m ;; k" := (bind m (fun _ => k))
  (at level 61, right associativity).

(** [try { body } finally { fin }]: [fin] runs on both exits of [body],
    wherever [body] was suspended in between; an exit of [fin] by [throw]
    replaces the exit of [body]. *)
Fixpoint try_finally {A : Type} (body : Prog A) (fin : Prog unit) : Prog A :=
  match body with
  | Ret a => fin ;; Ret a
  | Throw e => fin ;; Throw e
  | PreventDefault k => PreventDefault (try_finally k fin)
  | SetIsLoading b k => SetIsLoading b (try_finally k fin)
  | SetEmail v k => SetEmail v (try_finally k fin)
  | SetPassword v k => SetPassword v (try_finally k fin)
  | SetRemember b k => SetRemember b (try_finally k fin)
  | Call g data k => Call g data (fun r => try_finally (k r) fin)
  | Await p k => Await p (fun o => try_finally (k o) fin)
  end.

Definition preventDefault : Prog unit := PreventDefault (Ret tt).
Definition setIsLoading (b : bool) : Prog unit := SetIsLoading b (Ret tt).
Definition setEmail (v : string) : Prog unit := SetEmail v (Ret tt).
Definition setPassword (v : string) : Prog unit := SetPassword v (Ret tt).
Definition setRemember (b : bool) : Prog unit := SetRemember b (Ret tt).

(** [f(data)]: a promise, or the exception [f] threw. *)
Definition call (f : Handler) (data : Credentials) : Prog Promise :=
  Call f data (fun r => match r with inl e => Throw e | inr p => Ret p end).

(** [await p]: resumes when [p] settles, throwing its reason on rejection. *)
Definition await (p : Promise) : Prog unit :=
  Await p (fun o => match o with Fulfilled => Ret tt | Rejected e => Throw e end).

(** ** [LoginForm] *)

(** [handleSubmit] as closed over [onSubmit] and over the values of [email],
    [password] and [remember] of the render that created it. *)
Definition handleSubmit (onSubmit : option Handler)
    (email password : string) (remember : bool) : Prog unit :=
  preventDefault ;;
  setIsLoading true ;;
  try_finally
    (match onSubmit with
     | Some f =>
         p <- call f (mkCredentials email password remember) ;;
         await p
     | None => Ret tt
     end)
    (setIsLoading false).

(** Props of an element.  [onCheckedChange] receives a boolean: the source
    passes what the checkbox reports on as [checked as boolean]. *)
Inductive Attr : Type :=
| Str (name value : string)
| Flag (name : string) (b : bool)
| OnSubmit (h : Prog unit)
| OnChange (h : string -> Prog unit)
| OnCheckedChange (h : bool -> Prog unit).

Local Unset Elimination Schemes.
Inductive Element : Type :=
| Text (s : string)
| Node (tag : string) (attrs : list Attr) (children : list Element).
Local Set Elimination Schemes.

Record LoginFormProps : Type := mkProps {
  className : option string;
  onSubmit : option Handler;
  rest : list Attr
}.

Definition LoginForm (props : LoginFormProps) (s : FormState) : Element :=
  Node "div" (Str "className" (cn "flex flex-col gap-6" (className props)) :: rest props) [
    Node "form" [OnSubmit (handleSubmit (onSubmit props) (email s) (password s) (remember s))] [
      Node "div" [Str "className" "flex flex-col gap-6"] [
        Node "div" [Str "className" "flex flex-col items-center gap-2"] [
          Node "h1" [Str "className" "text-2xl font-bold"] [Text "Bem-vindo de volta"];
          Node "p" [Str "className" "text-balance text-sm text-muted-foreground"] [
            Text "Entre com sua conta para continuar"
          ]
        ];
        Node "div" [Str "className" "flex flex-col gap-4"] [
          Node "div" [Str "className" "grid gap-2"] [
            Node "Label" [Str "htmlFor" "email"] [Text "Email"];
            Node "Input" [
              Str "id" "email";
              Str "type" "email";
              Str "placeholder" "seu@email.com";
              Flag "required" true;
              Flag "disabled" (isLoading s);
              Str "value" (email s);
              OnChange (fun value => setEmail value)
            ] []
          ];
          Node "div" [Str "className" "grid gap-2"] [
            Node "div" [Str "className" "flex items-center justify-between"] [
              Node "Label" [Str "htmlFor" "password"] [Text "Senha"];
              Node "Link" [
                Str "href" "/forgot-password";
                Str "className" "text-sm text-muted-foreground underline-offset-4 hover:text-primary hover:underline"
              ] [Text "Esqueci minha senha"]
            ];
            Node "Input" [
              Str "id" "password";
              Str "type" "password";
              Str "placeholder" "********";
              Flag "required" true;
              Flag "disabled" (isLoading s);
              Str "value" (password s);
              OnChange (fun value => setPassword value)
            ] []
          ];
          Node "div" [Str "className" "flex items-center space-x-2"] [
            Node "Checkbox" [
              Str "id" "remember";
              Flag "checked" (remember s);
              OnCheckedChange (fun checked => setRemember checked);
              Flag "disabled" (isLoading s)
            ] [];
            Node "Label" [
              Str "htmlFor" "remember";
              Str "className" "text-sm font-normal leading-none peer-disabled:cursor-not-allowed peer-disabled:opacity-70"
            ] [Text "Lembrar-me"]
          ];
          Node "Button" [Str "type" "submit"; Str "className" "w-full"; Flag "disabled" (isLoading s)] [
            Text (if isLoading s then "Entrando..." else "Entrar")
          ]
        ]
      ]
    ];
    Node "div" [Str "className" "text-center text-sm"] [
      Text "Não tem uma conta?";
      Text " ";
      Node "Link" [
        Str "href" "/register";
        Str "className" "text-primary underline-offset-4 hover:underline"
      ] [Text "Criar conta"]
    ]
  ].

(** ** Reading an element tree *)

Fixpoint has_str (name value : string) (attrs : list Attr) : bool :=
  match attrs with
  | [] => false
  | Str n v :: tl => (String.eqb n name && String.eqb v value) || has_str name value tl
  | _ :: tl => has_str name value tl
  end.

Fixpoint get_str (name : string) (attrs : list Attr) : option string :=
  match attrs with
  | [] => None
  | Str n v :: tl => if String.eqb n name then Some v else get_str name tl
  | _ :: tl => get_str name tl
  end.

(** A boolean prop that is absent counts as [false]. *)
Fixpoint get_flag (name : string) (attrs : list Attr) : bool :=
  match attrs with
  | [] => false
  | Flag n b :: tl => if String.eqb n name then b else get_flag name tl
  | _ :: tl => get_flag name tl
  end.

Fixpoint get_onSubmit (attrs : list Attr) : option (Prog unit) :=
  match attrs with
  | [] => None
  | OnSubmit h :: _ => Some h
  | _ :: tl => get_onSubmit tl
  end.

Fixpoint get_onChange (attrs : list Attr) : option (string -> Prog unit) :=
  match attrs with
  | [] => None
  | OnChange h :: _ => Some h
  | _ :: tl => get_onChange tl
  end.

Fixpoint get_onCheckedChange (attrs : list Attr) : option (bool -> Prog unit) :=
  match attrs with
  | [] => None
  | OnCheckedChange h :: _ => Some h
  | _ :: tl => get_onCheckedChange tl
  end.

Definition is_handler (a : Attr) : bool :=
  match a with
  | OnSubmit _ | OnChange _ | OnCheckedChange _ => true
  | Str _ _ | Flag _ _ => false
  end.

(** All nodes of a tree in document order, each with its props and children. *)
Fixpoint nodes (e : Element) : list (string * list Attr * list Element) :=
  match e with
  | Text _ => []
  | Node tag attrs children =>
      (tag, attrs, children)
        :: (fix nodes_of (l : list Element) :=
              match l with
              | [] => []
              | c :: tl => nodes c ++ nodes_of tl
              end) children
  end.

Definition select (pred : string -> list Attr -> bool) (e : Element)
  : list (string * list Attr * list Element) :=
  filter (fun n => pred (fst (fst n)) (snd (fst n))) (nodes e).

(** The first node in document order that satisfies [pred]. *)
Definition find_node (pred : string -> list Attr -> bool) (e : Element)
  : option (list Attr * list Element) :=
  match select pred e with
  | [] => None
  | (_, attrs, children) :: _ => Some (attrs, children)
  end.

Definition with_id (tag id : string) : string -> list Attr -> bool :=
  fun t attrs => String.eqb t tag && has_str "id" id attrs.

Definition with_tag (tag : string) : string -> list Attr -> bool :=
  fun t _ => String.eqb t tag.

Definition submit_button : string -> list Attr -> bool :=
  fun t attrs => String.eqb t "Button" && has_str "type" "submit" attrs.

(** The [disabled] prop of the first node satisfying [pred]. *)
Definition disabled_of (pred : string -> list Attr -> bool) (e : Element) : option bool :=
  match find_node pred e with
  | Some (attrs, _) => Some (get_flag "disabled" attrs)
  | None => None
  end.

(** The text children of the first node satisfying [pred]. *)
Definition text_of (pred : string -> list Attr -> bool) (e : Element) : option (list string) :=
  match find_node pred e with
  | Some (_, children) =>
      Some (flat_map (fun c => match c with Text s => [s] | Node _ _ _ => [] end) children)
  | None => None
  end.

(** ** The runtime around the component *)

(** An [async] call suspended at an [await], with what it does on resumption. *)
Definition Suspended : Type := (Promise * (Outcome -> Prog unit))%type.

Record World : Type := mkWorld {
  props : LoginFormProps;          (* the props of the last render *)
  state : FormState;               (* the committed [useState] cells *)
  waiting : list Suspended;        (* [handleSubmit] calls suspended at [await] *)
  next_promise : Promise;          (* the name of the next promise [onSubmit] returns *)
  calls : list (Handler * Credentials);
    (* the calls of an injected handler, oldest first: the function called and
       its argument *)
  completions : list (Outcome * bool);
    (* how the promises returned by [handleSubmit] settled, oldest first, each
       with the value of [isLoading] at that moment *)
  navigations : nat                (* default form submissions the browser performed *)
}.

Definition set_state (s : FormState) (w : World) : World :=
  mkWorld (props w) s (waiting w) (next_promise w) (calls w) (completions w) (navigations w).

Definition set_waiting (l : list Suspended) (w : World) : World :=
  mkWorld (props w) (state w) l (next_promise w) (calls w) (completions w) (navigations w).

Definition set_props (p : LoginFormProps) (w : World) : World :=
  mkWorld p (state w) (waiting w) (next_promise w) (calls w) (completions w) (navigations w).

Definition log_call (f : Handler) (data : Credentials) (w : World) : World :=
  mkWorld (props w) (state w) (waiting w) (next_promise w) (calls w ++ [(f, data)])
          (completions w) (navigations w).

Definition fresh_promise (w : World) : World :=
  mkWorld (props w) (state w) (waiting w) (S (next_promise w)) (calls w)
          (completions w) (navigations w).

Definition log_completion (o : Outcome) (w : World) : World :=
  mkWorld (props w) (state w) (waiting w) (next_promise w) (calls w)
          (completions w ++ [(o, isLoading (state w))]) (navigations w).

Definition navigate (w : World) : World :=
  mkWorld (props w) (state w) (waiting w) (next_promise w) (calls w)
          (completions w) (S (navigations w)).

(** How a run of a handler program ends: it returned, it threw, or it is
    suspended at an [await]. *)
Inductive Status : Type :=
| Done
| Failed (e : Reason)
| Blocked (p : Promise) (k : Outcome -> Prog unit).

(** Runs a program up to its end or its first [await].  [prevented] is the
    [defaultPrevented] flag of the event being handled.  The setters act on
    the cells at once: a handler reads the cells only through the values its
    render closed over, so this is what React's batch commits. *)
Fixpoint exec (m : Prog unit) (w : World) (prevented : bool) : World * bool * Status :=
  match m with
  | Ret _ => (w, prevented, Done)
  | Throw e => (w, prevented, Failed e)
  | PreventDefault k => exec k w true
  | SetIsLoading b k =>
      exec k (set_state (mkFormState b (email (state w)) (password (state w)) (remember (state w))) w)
           prevented
  | SetEmail v k =>
      exec k (set_state (mkFormState (isLoading (state w)) v (password (state w)) (remember (state w))) w)
           prevented
  | SetPassword v k =>
      exec k (set_state (mkFormState (isLoading (state w)) (email (state w)) v (remember (state w))) w)
           prevented
  | SetRemember b k =>
      exec k (set_state (mkFormState (isLoading (state w)) (email (state w)) (password (state w)) b) w)
           prevented
  | Call f data k =>
      match f data with
      | Some e => exec (k (inl e)) (log_call f data w) prevented
      | None => exec (k (inr (next_promise w))) (fresh_promise (log_call f data w)) prevented
      end
  | Await p k => (w, prevented, Blocked p k)
  end.

(** The promise of an [async] function: fulfilled when the body returns,
    rejected with what the body throws, still pending while it is suspended. *)
Definition finish (w : World) (st : Status) : World :=
  match st with
  | Done => log_completion Fulfilled w
  | Failed e => log_completion (Rejected e) w
  | Blocked p k => set_waiting (waiting w ++ [(p, k)]) w
  end.

(** What the component renders in a world. *)
Definition view (w : World) : Element := LoginForm (props w) (state w).

(** The events React hands to the handlers of the form. *)
Inductive Dom : Type :=
| ChangeEmail (value : string)
| ChangePassword (value : string)
| CheckedChange (checked : bool)
| Submit.

(** The handler of the last render receives the event.  The handlers of the
    inputs are plain functions; [handleSubmit] is [async], and the browser
    performs the default submission unless the event was prevented when the
    handler gave control back. *)
Definition deliver (w : World) (d : Dom) : World :=
  match d with
  | ChangeEmail v =>
      match find_node (with_id "Input" "email") (view w) with
      | Some (attrs, _) =>
          match get_onChange attrs with
          | Some h => fst (fst (exec (h v) w false))
          | None => w
          end
      | None => w
      end
  | ChangePassword v =>
      match find_node (with_id "Input" "password") (view w) with
      | Some (attrs, _) =>
          match get_onChange attrs with
          | Some h => fst (fst (exec (h v) w false))
          | None => w
          end
      | None => w
      end
  | CheckedChange b =>
      match find_node (with_id "Checkbox" "remember") (view w) with
      | Some (attrs, _) =>
          match get_onCheckedChange attrs with
          | Some h => fst (fst (exec (h b) w false))
          | None => w
          end
      | None => w
      end
  | Submit =>
      match find_node (with_tag "form") (view w) with
      | Some (attrs, _) =>
          match get_onSubmit attrs with
          | Some h =>
              let '(w', prevented, st) := exec h w false in
              let w'' := finish w' st in
              if prevented then w'' else navigate w''
          | None => navigate w
          end
      | None => w
      end
  end.

(** Constraint validation of one rendered [Input]: a disabled control is
    barred from it, a [required] one needs a value, and a value of an
    [email] input has to pass the syntax check. *)
Definition input_valid (attrs : list Attr) : bool :=
  get_flag "disabled" attrs
  || match get_str "value" attrs with
     | Some v =>
         (negb (get_flag "required" attrs) || negb (String.eqb v ""))
         && (negb (has_str "type" "email" attrs) || String.eqb v "" || email_syntax v)
     | None => negb (get_flag "required" attrs)
     end.

Definition form_valid (e : Element) : bool :=
  forallb (fun n => input_valid (snd (fst n))) (select (with_tag "Input") e).

(** Whether the browser lets a user cause the event: the control has to be
    rendered and not disabled; a click on the submit button submits only a
    form that validates. *)
Definition enabled (e : Element) (d : Dom) : bool :=
  match d with
  | ChangeEmail _ => match disabled_of (with_id "Input" "email") e with Some b => negb b | None => false end
  | ChangePassword _ => match disabled_of (with_id "Input" "password") e with Some b => negb b | None => false end
  | CheckedChange _ => match disabled_of (with_id "Checkbox" "remember") e with Some b => negb b | None => false end
  | Submit => match disabled_of submit_button e with Some b => negb b && form_valid e | None => false end
  end.

(** Removes the call that waits for [p], if there is one. *)
Fixpoint take (p : Promise) (l : list Suspended) : option ((Outcome -> Prog unit) * list Suspended) :=
  match l with
  | [] => None
  | (q, k) :: tl =>
      if Nat.eqb q p then Some (k, tl)
      else match take p tl with
           | Some (k', tl') => Some (k', (q, k) :: tl')
           | None => None
           end
  end.

Inductive Event : Type :=
| User (d : Dom)                        (* the user acts on a rendered control *)
| Script (d : Dom)                      (* the event is dispatched from code, whatever is rendered *)
| Settle (p : Promise) (o : Outcome)    (* a promise returned by [onSubmit] settles *)
| Rerender (p : LoginFormProps).        (* the parent renders the form with new props *)

Definition step (w : World) (ev : Event) : World :=
  match ev with
  | User d => if enabled (view w) d then deliver w d else w
  | Script d => deliver w d
  | Settle p o =>
      match take p (waiting w) with
      | Some (k, tl) =>
          let '(w', _, st) := exec (k o) (set_waiting tl w) true in
          finish w' st
      | None => w
      end
  | Rerender p => set_props p w
  end.

(** A freshly mounted form: the initial values of the [useState] cells. *)
Definition mount (p : LoginFormProps) : World :=
  mkWorld p (mkFormState false "" "" false) [] 0 [] [] 0.

Definition run_from (w : World) (evs : list Event) : World := fold_left step evs w.

Definition run (p : LoginFormProps) (evs : list Event) : World := run_from (mount p) evs.

Definition user_driven (ev : Event) : bool :=
  match ev with
  | Script _ => false
  | User _ | Settle _ _ | Rerender _ => true
  end.

Definition credentials_of (s : FormState) : Credentials :=
  mkCredentials (email s) (password s) (remember s).

(** ** [LoginPage] *)

(** The page takes no props and calls no hook. *)
Definition LoginPage (_ : unit) : Element :=
  Node "div" [Str "className" "flex min-h-svh flex-col items-center justify-center bg-muted p-6 md:p-10"] [
    Node "div" [Str "className" "w-full max-w-sm"] [
      Node "Card" [] [
        Node "CardHeader" [Str "className" "text-center"] [
          Node "CardTitle" [Str "className" "text-xl"] [Text "Login"];
          Node "CardDescription" [] [Text "Sistema de Aptidão SENAC"]
        ];
        Node "CardContent" [] [
          Node "LoginForm" [] []
        ]
      ];
      Node "p" [Str "className" "mt-4 text-center text-xs text-muted-foreground"] [
        Text "Ao continuar, você concorda com nossos";
        Text " ";
        Node "a" [Str "href" "#"; Str "className" "underline underline-offset-4 hover:text-primary"] [
          Text "Termos de Serviço"
        ];
        Text " ";
        Text "e";
        Text " ";
        Node "a" [Str "href" "#"; Str "className" "underline underline-offset-4 hover:text-primary"] [
          Text "Política de Privacidade"
        ];
        Text "."
      ]
    ]
  ].

(** ** Vocabulary of the properties *)

(** [handleSubmit] past its [await]: the rest of the [try] block, then the
    [finally] block. *)
Definition resume : Outcome -> Prog unit :=
  fun o =>
    try_finally
      (match o with Fulfilled => Ret tt | Rejected e => Throw e end)
      (setIsLoading false).

Definition loading (b : bool) (s : FormState) : FormState :=
  mkFormState b (email s) (password s) (remember s).

(** The promises of [onSubmit] that have not settled. *)
Definition pending (w : World) : list Promise := map fst (waiting w).

(** The [defaultPrevented] flag of a submit event at the moment the handler of
    the form gives control back. *)
Definition submit_prevented (w : World) : bool :=
  match find_node (with_tag "form") (view w) with
  | Some (attrs, _) =>
      match get_onSubmit attrs with
      | Some h => snd (fst (exec h w false))
      | None => false
      end
  | None => false
  end.

(** The event handlers attached anywhere in a tree. *)
Definition handlers (e : Element) : list Attr :=
  flat_map (fun n => filter is_handler (snd (fst n))) (nodes e).

(** The nodes satisfying [inner] below the first node satisfying [outer]. *)
Definition inside (outer inner : string -> list Attr -> bool) (e : Element)
  : list (string * list Attr * list Element) :=
  match find_node outer e with
  | Some (_, children) => flat_map (select inner) children
  | None => []
  end.

(** Every suspended call is a [handleSubmit] past its [await]. *)
Definition wf (w : World) : Prop :=
  Forall (fun c : Suspended => snd c = resume) (waiting w).

(** The form is idle (not loading, nothing suspended) or busy (loading, with
    exactly one suspended [handleSubmit]). *)
Definition idle (w : World) : Prop :=
  isLoading (state w) = false /\ waiting w = [].

Definition busy (w : World) : Prop :=
  isLoading (state w) = true /\ exists p, waiting w = [(p, resume)].

Definition serialized (w : World) : Prop := idle w \/ busy w.

(** The value an [Input] displays and whether the checkbox is checked. *)
Definition shown_value (id : string) (e : Element) : option string :=
  match find_node (with_id "Input" id) e with
  | Some (attrs, _) => get_str "value" attrs
  | None => None
  end.

Definition shown_checked (e : Element) : option bool :=
  match find_node (with_id "Checkbox" "remember") e with
  | Some (attrs, _) => Some (get_flag "checked" attrs)
  | None => None
  end.

(** Whether an event makes a submit event reach the handler of the form. *)
Definition submits (w : World) (ev : Event) : bool :=
  match ev with
  | User Submit => enabled (view w) Submit
  | Script Submit => true
  | _ => false
  end.

(** The number of submit events that reach the handler along a run. *)
Fixpoint submissions (w : World) (evs : list Event) : nat :=
  match evs with
  | [] => 0
  | ev :: tl => (if submits w ev then 1 else 0) + submissions (step w ev) tl
  end.

Definition is_rerender (ev : Event) : bool :=
  match ev with
  | Rerender _ => true
  | _ => false
  end.

(** The props the page gives its [LoginForm] element: the element carries no
    attribute, so [className] and [onSubmit] are undefined and there is
    nothing else to pass on. *)
Definition page_form_props (r : unit) : option LoginFormProps :=
  match select (with_tag "LoginForm") (LoginPage r) with
  | [(_, [], _)] => Some (mkProps None None [])
  | _ => None
  end.

(** * Properties *)

(** ** What the handlers do *)

Lemma exec_resume (o : Outcome) (w : World) (b : bool) :
  exec (resume o) w b =
  (set_state (loading false (state w)) w, b,
   match o with Fulfilled => Done | Rejected e => Failed e end).
Proof. destruct o; reflexivity. Qed.

(** Without an injected handler the body of [try] is empty. *)
Lemma deliver_submit_none (w : World) :
  onSubmit (props w) = None ->
  deliver w Submit =
  log_completion Fulfilled (set_state (loading false (state w)) w).
Proof.
  intros Hnone. unfold deliver, view, LoginForm. cbn. rewrite Hnone. reflexivity.
Qed.

(** The injected handler throws before it returns a promise. *)
Lemma deliver_submit_throw (w : World) (f : Handler) (e : Reason) :
  onSubmit (props w) = Some f ->
  f (credentials_of (state w)) = Some e ->
  deliver w Submit =
  log_completion (Rejected e)
    (set_state (loading false (state w)) (log_call f (credentials_of (state w)) w)).
Proof.
  intros Hsome Hf. unfold deliver, view, LoginForm. cbn. rewrite Hsome. cbn.
  unfold credentials_of in Hf. rewrite Hf. reflexivity.
Qed.

(** The injected handler returns a promise: [handleSubmit] is suspended. *)
Lemma deliver_submit_promise (w : World) (f : Handler) :
  onSubmit (props w) = Some f ->
  f (credentials_of (state w)) = None ->
  deliver w Submit =
  set_waiting (waiting w ++ [(next_promise w, resume)])
    (set_state (loading true (state w))
       (fresh_promise (log_call f (credentials_of (state w)) w))).
Proof.
  intros Hsome Hf. unfold deliver, view, LoginForm. cbn. rewrite Hsome. cbn.
  unfold credentials_of in Hf. rewrite Hf. reflexivity.
Qed.

Lemma deliver_change_email (w : World) (v : string) :
  deliver w (ChangeEmail v) =
  set_state (mkFormState (isLoading (state w)) v (password (state w)) (remember (state w))) w.
Proof. reflexivity. Qed.

Lemma deliver_change_password (w : World) (v : string) :
  deliver w (ChangePassword v) =
  set_state (mkFormState (isLoading (state w)) (email (state w)) v (remember (state w))) w.
Proof. reflexivity. Qed.

Lemma deliver_checked_change (w : World) (b : bool) :
  deliver w (CheckedChange b) =
  set_state (mkFormState (isLoading (state w)) (email (state w)) (password (state w)) b) w.
Proof. reflexivity. Qed.

(** ** What is rendered *)

Lemma disabled_email (p : LoginFormProps) (s : FormState) :
  disabled_of (with_id "Input" "email") (LoginForm p s) = Some (isLoading s).
Proof. reflexivity. Qed.

Lemma disabled_password (p : LoginFormProps) (s : FormState) :
  disabled_of (with_id "Input" "password") (LoginForm p s) = Some (isLoading s).
Proof. reflexivity. Qed.

Lemma disabled_remember (p : LoginFormProps) (s : FormState) :
  disabled_of (with_id "Checkbox" "remember") (LoginForm p s) = Some (isLoading s).
Proof. reflexivity. Qed.

Lemma disabled_submit (p : LoginFormProps) (s : FormState) :
  disabled_of submit_button (LoginForm p s) = Some (isLoading s).
Proof. reflexivity. Qed.

Lemma submit_text (p : LoginFormProps) (s : FormState) :
  text_of submit_button (LoginForm p s) =
  Some [if isLoading s then "Entrando..." else "Entrar"].
Proof. reflexivity. Qed.

(** While the form is loading the browser delivers nothing a user does. *)
Lemma enabled_while_loading (w : World) (d : Dom) :
  isLoading (state w) = true -> enabled (view w) d = false.
Proof.
  intros Hl. unfold view.
  destruct d; unfold enabled;
    rewrite ?disabled_email, ?disabled_password, ?disabled_remember, ?disabled_submit;
    rewrite Hl; reflexivity.
Qed.

Lemma enabled_input (w : World) (d : Dom) :
  d <> Submit -> enabled (view w) d = negb (isLoading (state w)).
Proof.
  intros Hd. unfold view.
  destruct d; try congruence; unfold enabled;
    rewrite ?disabled_email, ?disabled_password, ?disabled_remember; reflexivity.
Qed.

(** ** Suspended calls *)

Lemma take_none (p : Promise) (l : list Suspended) :
  ~ In p (map fst l) -> take p l = None.
Proof.
  induction l as [|[q k] tl IH]; intros Hin; [reflexivity|].
  cbn in *. destruct (Nat.eqb_spec q p) as [->|Hne].
  - exfalso. apply Hin. now left.
  - rewrite IH; [reflexivity|]. intros H. apply Hin. now right.
Qed.

Lemma take_some (p : Promise) (l : list Suspended) :
  Forall (fun c : Suspended => snd c = resume) l ->
  In p (map fst l) ->
  exists tl, take p l = Some (resume, tl)
             /\ Forall (fun c : Suspended => snd c = resume) tl
             /\ length l = S (length tl).
Proof.
  induction l as [|[q k] tl IH]; intros Hall Hin; [contradiction|].
  inversion Hall as [|c l' Hk Htl]; subst. cbn in Hk. subst k.
  cbn. destruct (Nat.eqb_spec q p) as [->|Hne].
  - exists tl. auto.
  - destruct Hin as [Heq|Hin]; [cbn in Heq; congruence|].
    destruct (IH Htl Hin) as (tl' & Htake & Hall' & Hlen).
    rewrite Htake. exists ((q, resume) :: tl'). repeat split.
    + constructor; auto.
    + cbn. now rewrite Hlen.
Qed.

(** A settlement resumes the call that waits for the promise: the [finally]
    block resets the flag and the promise of [handleSubmit] settles alike. *)
Lemma step_settle (w : World) (p : Promise) (o : Outcome) (tl : list Suspended) :
  take p (waiting w) = Some (resume, tl) ->
  step w (Settle p o) =
  log_completion o (set_state (loading false (state w)) (set_waiting tl w)).
Proof.
  intros Htake. unfold step. rewrite Htake, exec_resume.
  destruct o; reflexivity.
Qed.

Lemma step_settle_none (w : World) (p : Promise) (o : Outcome) :
  take p (waiting w) = None -> step w (Settle p o) = w.
Proof. intros Htake. unfold step. now rewrite Htake. Qed.

(** The three ways a submit event ends, by the injected handler. *)
Ltac submit_cases w :=
  let f := fresh "f" in
  let e := fresh "e" in
  let Hsub := fresh "Hsub" in
  let Hf := fresh "Hf" in
  destruct (onSubmit (props w)) as [f|] eqn:Hsub;
  [ destruct (f (credentials_of (state w))) as [e|] eqn:Hf;
    [ rewrite (deliver_submit_throw w f e Hsub Hf)
    | rewrite (deliver_submit_promise w f Hsub Hf) ]
  | rewrite (deliver_submit_none w Hsub) ].

Lemma deliver_wf (w : World) (d : Dom) : wf w -> wf (deliver w d).
Proof.
  unfold wf. intros Hwf. destruct d; try exact Hwf.
  submit_cases w; cbn; auto.
  apply Forall_app. split; [exact Hwf|]. constructor; [reflexivity|constructor].
Qed.

Lemma step_wf (w : World) (ev : Event) : wf w -> wf (step w ev).
Proof.
  intros Hwf. destruct ev as [d|d|p o|p'].
  - cbn. destruct (enabled (view w) d); [now apply deliver_wf|exact Hwf].
  - now apply deliver_wf.
  - destruct (in_dec Nat.eq_dec p (map fst (waiting w))) as [Hin|Hout].
    + destruct (take_some p (waiting w) Hwf Hin) as (tl & Htake & Hall & _).
      rewrite (step_settle w p o tl Htake). exact Hall.
    + rewrite (step_settle_none w p o (take_none p _ Hout)). exact Hwf.
  - exact Hwf.
Qed.

Lemma run_from_wf (evs : list Event) (w : World) : wf w -> wf (run_from w evs).
Proof.
  revert w. induction evs as [|ev evs IH]; intros w Hwf; [exact Hwf|].
  cbn. apply IH. now apply step_wf.
Qed.

Lemma run_wf (p : LoginFormProps) (evs : list Event) : wf (run p evs).
Proof. apply run_from_wf. constructor. Qed.

(** Settlements call no handler. *)
Lemma step_settle_calls (w : World) (p : Promise) (o : Outcome) :
  wf w -> calls (step w (Settle p o)) = calls w.
Proof.
  intros Hwf. destruct (in_dec Nat.eq_dec p (map fst (waiting w))) as [Hin|Hout].
  - destruct (take_some p (waiting w) Hwf Hin) as (tl & Htake & _).
    now rewrite (step_settle w p o tl Htake).
  - now rewrite (step_settle_none w p o (take_none p _ Hout)).
Qed.

Lemma settlements_calls (l : list (Promise * Outcome)) (w : World) :
  wf w ->
  calls (run_from w (map (fun s => Settle (fst s) (snd s)) l)) = calls w.
Proof.
  revert w. induction l as [|[p o] l IH]; intros w Hwf; [reflexivity|].
  cbn [map run_from fold_left fst snd]. fold (run_from (step w (Settle p o))
    (map (fun s : Promise * Outcome => Settle (fst s) (snd s)) l)).
  rewrite IH by now apply step_wf. now apply step_settle_calls.
Qed.

(** ** Serialization by the loading flag *)

Lemma busy_user (w : World) (d : Dom) : busy w -> step w (User d) = w.
Proof.
  intros [Hl _]. cbn. now rewrite (enabled_while_loading w d Hl).
Qed.

Lemma idle_deliver (w : World) (d : Dom) : idle w -> serialized (deliver w d).
Proof.
  intros [Hl Hw]. destruct d.
  - left. split; [exact Hl|exact Hw].
  - left. split; [exact Hl|exact Hw].
  - left. split; [exact Hl|exact Hw].
  - submit_cases w.
    + left. split; [reflexivity|exact Hw].
    + right. split; [reflexivity|]. exists (next_promise w). cbn. now rewrite Hw.
    + left. split; [reflexivity|exact Hw].
Qed.

Lemma step_serialized (w : World) (ev : Event) :
  user_driven ev = true -> serialized w -> serialized (step w ev).
Proof.
  intros Hu Hs. destruct ev as [d|d|p o|p']; [| discriminate Hu | |].
  - destruct Hs as [Hi|Hb].
    + cbn. destruct (enabled (view w) d); [now apply idle_deliver|now left].
    + rewrite (busy_user w d Hb). now right.
  - destruct Hs as [[Hl Hw]|[Hl [q Hw]]].
    + rewrite step_settle_none; [now left|]. now rewrite Hw.
    + destruct (Nat.eqb_spec q p) as [->|Hne].
      * rewrite (step_settle w p o []).
        -- left. split; reflexivity.
        -- rewrite Hw. cbn. now rewrite Nat.eqb_refl.
      * rewrite step_settle_none.
        -- right. split; [exact Hl|now exists q].
        -- rewrite Hw. cbn. now destruct (Nat.eqb_spec q p).
  - destruct Hs as [[Hl Hw]|[Hl [q Hw]]]; [left|right]; split; auto.
    now exists q.
Qed.

Lemma run_from_serialized (evs : list Event) (w : World) :
  forallb user_driven evs = true -> serialized w -> serialized (run_from w evs).
Proof.
  revert w. induction evs as [|ev evs IH]; intros w Hall Hs; [exact Hs|].
  cbn in Hall. apply andb_true_iff in Hall as [Hev Hall].
  cbn. apply IH; [exact Hall|]. now apply step_serialized.
Qed.

Lemma run_serialized (p : LoginFormProps) (evs : list Event) :
  forallb user_driven evs = true -> serialized (run p evs).
Proof.
  intros Hall. apply run_from_serialized; [exact Hall|]. left. split; reflexivity.
Qed.

(** While the form is busy nothing a user does changes anything. *)
Lemma busy_users (ds : list Dom) (w : World) :
  busy w -> run_from w (map User ds) = w.
Proof.
  intros Hb. induction ds as [|d ds IH]; [reflexivity|].
  cbn [map run_from fold_left]. rewrite (busy_user w d Hb). exact IH.
Qed.

(** ** The rendered controls *)

(** C4: in every rendered state of [LoginForm] the [disabled] prop of the
    email input, of the password input, of the remember checkbox and of the
    submit button is the value of [isLoading]: each of them is disabled if
    and only if the flag is true. *)
Theorem controls_disabled_iff_loading (p : LoginFormProps) (s : FormState) :
  disabled_of (with_id "Input" "email") (LoginForm p s) = Some (isLoading s)
  /\ disabled_of (with_id "Input" "password") (LoginForm p s) = Some (isLoading s)
  /\ disabled_of (with_id "Checkbox" "remember") (LoginForm p s) = Some (isLoading s)
  /\ disabled_of submit_button (LoginForm p s) = Some (isLoading s).
Proof.
  split; [apply disabled_email|].
  split; [apply disabled_password|].
  split; [apply disabled_remember|apply disabled_submit].
Qed.

(** ** Single events *)

(** C7: an [onCheckedChange] event of the remember checkbox sets [remember]
    to the reported value and changes nothing else: [email], [password] and
    [isLoading] keep their values, and so does everything outside the state
    of the component.  What a user does to the checkbox either is that event
    or, while the checkbox is disabled, nothing. *)
Theorem remember_toggle_frame (w : World) (b : bool) :
  let w' := deliver w (CheckedChange b) in
  email (state w') = email (state w)
  /\ password (state w') = password (state w)
  /\ isLoading (state w') = isLoading (state w)
  /\ remember (state w') = b
  /\ w' = set_state (mkFormState (isLoading (state w)) (email (state w)) (password (state w)) b) w
  /\ (step w (User (CheckedChange b)) = w' \/ step w (User (CheckedChange b)) = w).
Proof.
  cbv zeta. rewrite deliver_checked_change. repeat split.
  cbn [step]. rewrite deliver_checked_change.
  destruct (enabled (view w) (CheckedChange b)); [now left|now right].
Qed.

(** C5: when no [onSubmit] is supplied a submit event is default-prevented,
    so the browser performs no navigation; the promise of [handleSubmit] is
    fulfilled, not rejected; [isLoading] is false afterwards; no call is
    suspended or logged and the inputs keep their values. *)
Theorem submit_without_handler (w : World) :
  onSubmit (props w) = None ->
  let w' := deliver w Submit in
  submit_prevented w = true
  /\ navigations w' = navigations w
  /\ completions w' = completions w ++ [(Fulfilled, false)]
  /\ isLoading (state w') = false
  /\ waiting w' = waiting w
  /\ calls w' = calls w
  /\ credentials_of (state w') = credentials_of (state w).
Proof.
  intros Hnone. cbv zeta. rewrite (deliver_submit_none w Hnone).
  split; [|repeat split].
  unfold submit_prevented, view, LoginForm. cbn. rewrite Hnone. reflexivity.
Qed.

(** C10: a freshly mounted [LoginForm] has the empty string as [email] and as
    [password], [remember] false and [isLoading] false; a submit event right
    after the mount hands [{email: "", password: "", remember: false}] to the
    supplied handler, and to nothing else. *)
Theorem initial_state_and_submit (p : LoginFormProps) (f : Handler) :
  onSubmit p = Some f ->
  state (mount p) = mkFormState false "" "" false
  /\ calls (mount p) = []
  /\ calls (deliver (mount p) Submit) = [(f, mkCredentials "" "" false)]
  /\ calls (step (mount p) (Script Submit)) = [(f, mkCredentials "" "" false)].
Proof.
  intros Hsome. split; [reflexivity|]. split; [reflexivity|].
  assert (H : calls (deliver (mount p) Submit) = [(f, mkCredentials "" "" false)]).
  { destruct (f (credentials_of (state (mount p)))) as [e|] eqn:Hf.
    - now rewrite (deliver_submit_throw (mount p) f e Hsome Hf).
    - now rewrite (deliver_submit_promise (mount p) f Hsome Hf). }
  split; exact H.
Qed.

(** ** Submissions *)

(** C1: in every state the form can be in, with an [onSubmit] supplied, a
    submit event calls the supplied function once, on the values the inputs
    hold at that moment; whatever settles afterwards adds no further call. *)
Theorem submit_calls_handler_once
    (p0 : LoginFormProps) (evs : list Event) (f : Handler) :
  let w := run p0 evs in
  onSubmit (props w) = Some f ->
  calls (deliver w Submit) = calls w ++ [(f, credentials_of (state w))]
  /\ forall settlements : list (Promise * Outcome),
       calls (run_from (deliver w Submit)
                (map (fun s => Settle (fst s) (snd s)) settlements))
       = calls w ++ [(f, credentials_of (state w))].
Proof.
  intros w Hsome. pose proof (run_wf p0 evs) as Hwf. fold w in Hwf. clearbody w.
  assert (Hcalls : calls (deliver w Submit) = calls w ++ [(f, credentials_of (state w))]).
  { destruct (f (credentials_of (state w))) as [e|] eqn:Hf.
    - now rewrite (deliver_submit_throw w f e Hsome Hf).
    - now rewrite (deliver_submit_promise w f Hsome Hf). }
  split; [exact Hcalls|].
  intros settlements. rewrite settlements_calls; [exact Hcalls|].
  apply deliver_wf. exact Hwf.
Qed.

(** C3: when the injected handler rejects, [handleSubmit] rejects with the
    same reason (it is neither fulfilled nor given another reason), and at
    that moment [isLoading] is false again.  This holds for a promise of the
    handler that is rejected later and for a handler that throws at once. *)
Theorem rejection_propagates_after_reset
    (p0 : LoginFormProps) (evs : list Event) (e : Reason) :
  let w := run p0 evs in
  (forall p : Promise,
      In p (pending w) ->
      let w' := step w (Settle p (Rejected e)) in
      completions w' = completions w ++ [(Rejected e, false)]
      /\ isLoading (state w') = false)
  /\ (forall f : Handler,
        onSubmit (props w) = Some f ->
        f (credentials_of (state w)) = Some e ->
        let w' := deliver w Submit in
        completions w' = completions w ++ [(Rejected e, false)]
        /\ isLoading (state w') = false).
Proof.
  intros w. pose proof (run_wf p0 evs) as Hwf. fold w in Hwf. clearbody w.
  split.
  - intros p Hin w'. subst w'.
    destruct (take_some p (waiting w) Hwf Hin) as (tl & Htake & _).
    rewrite (step_settle w p (Rejected e) tl Htake). split; reflexivity.
  - intros f Hsome Hf w'. subst w'.
    rewrite (deliver_submit_throw w f e Hsome Hf). split; reflexivity.
Qed.



(** C8: with "a@b.com" typed as email, "secret" as password and the remember
    checkbox checked, the user submits and the handler returns a promise.
    Before the submission the button reads "Entrar"; from the submission on,
    whatever the user tries meanwhile, it reads "Entrando..." and the promise
    stays pending; once the promise is fulfilled it reads "Entrar" again.  The
    handler was called once, on
    [{email: "a@b.com", password: "secret", remember: true}]. *)
Theorem login_scenario (p0 : LoginFormProps) (f : Handler) :
  onSubmit p0 = Some f ->
  f (mkCredentials "a@b.com" "secret" true) = None ->
  email_syntax "a@b.com" = true ->
  let data := mkCredentials "a@b.com" "secret" true in
  let w0 := run p0 [User (ChangeEmail "a@b.com"); User (ChangePassword "secret");
                    User (CheckedChange true)] in
  let w1 := step w0 (User Submit) in
  credentials_of (state w0) = data
  /\ text_of submit_button (view w0) = Some ["Entrar"]
  /\ calls w1 = [(f, data)]
  /\ pending w1 = [0]
  /\ (forall ds : list Dom,
        let w := run_from w1 (map User ds) in
        text_of submit_button (view w) = Some ["Entrando..."]
        /\ calls w = [(f, data)]
        /\ pending w = [0])
  /\ (forall ds : list Dom,
        let w2 := step (run_from w1 (map User ds)) (Settle 0 Fulfilled) in
        text_of submit_button (view w2) = Some ["Entrar"]
        /\ calls w2 = [(f, data)]
        /\ pending w2 = []
        /\ completions w2 = [(Fulfilled, false)]).
Proof.
  intros Hsome Hf Hsyn data w0 w1.
  assert (Hw0 : w0 = mkWorld p0 (mkFormState false "a@b.com" "secret" true) [] 0 [] [] 0)
    by reflexivity.
  assert (Hen : enabled (view w0) Submit = true).
  { rewrite Hw0. unfold enabled, view. rewrite disabled_submit.
    unfold form_valid, LoginForm. cbn. rewrite Hsyn. reflexivity. }
  assert (Hw1 : w1 = mkWorld p0 (mkFormState true "a@b.com" "secret" true)
                       [(0, resume)] 1 [(f, data)] [] 0).
  { unfold w1. cbn [step]. rewrite Hen.
    rewrite (deliver_submit_promise w0 f); rewrite Hw0; auto. }
  assert (Hbusy : busy w1).
  { rewrite Hw1. split; [reflexivity|]. now exists 0. }
  clearbody w0 w1.
  split; [now rewrite Hw0|]. split; [now rewrite Hw0|].
  split; [now rewrite Hw1|]. split; [now rewrite Hw1|].
  split; intros ds; rewrite (busy_users ds w1 Hbusy); rewrite Hw1.
  - repeat split.
  - repeat split.
Qed.

(** ** Remarks on the reach of the properties *)

(** The inputs are [required]: the browser does not let a user submit the
    form while they are empty, so the submit event right after the mount can
    only be dispatched from code. *)
Remark user_submit_needs_values (p : LoginFormProps) :
  step (mount p) (User Submit) = mount p.
Proof. reflexivity. Qed.

(** [handleSubmit] does not look at [isLoading]: submit events dispatched from
    code while a call is pending start further calls, and the first
    settlement resets the flag while another call is still pending.  The
    serialization is the work of the disabled controls alone. *)
Remark scripted_submits_overlap (p : LoginFormProps) (f : Handler) :
  onSubmit p = Some f ->
  (forall c : Credentials, f c = None) ->
  let w := run p [Script Submit; Script Submit] in
  pending w = [0; 1]
  /\ isLoading (state (step w (Settle 0 Fulfilled))) = false
  /\ pending (step w (Settle 0 Fulfilled)) = [1].
Proof.
  intros Hsome Hf w.
  assert (Hw : w = mkWorld p (mkFormState true "" "" false) [(0, resume); (1, resume)] 2
                     [(f, mkCredentials "" "" false); (f, mkCredentials "" "" false)] [] 0).
  { unfold w, run, run_from. cbn [fold_left step].
    rewrite (deliver_submit_promise (mount p) f Hsome (Hf _)).
    rewrite deliver_submit_promise with (f := f); [reflexivity|exact Hsome|apply Hf]. }
  clearbody w. rewrite Hw. repeat split.
Qed.

(** ** The page *)

(** C9: [LoginPage] takes no props and reads no state, so any two renders
    give the same tree; the tree attaches no event handler; it is a [Card]
    whose [CardTitle] reads "Login", whose content is one [LoginForm] given
    no props, followed by a paragraph of fixed text with two links. *)
Theorem login_page_static :
  (forall r1 r2 : unit, LoginPage r1 = LoginPage r2)
  /\ (forall r : unit,
        handlers (LoginPage r) = []
        /\ text_of (with_tag "CardTitle") (LoginPage r) = Some ["Login"]
        /\ text_of (with_tag "CardDescription") (LoginPage r) = Some ["Sistema de Aptidão SENAC"]
        /\ inside (with_tag "Card") (with_tag "CardTitle") (LoginPage r)
           = [("CardTitle", [Str "className" "text-xl"], [Text "Login"])]
        /\ inside (with_tag "Card") (with_tag "LoginForm") (LoginPage r)
           = [("LoginForm", [], [])]
        /\ select (with_tag "LoginForm") (LoginPage r) = [("LoginForm", [], [])]
        /\ map (fun n => get_str "href" (snd (fst n))) (select (with_tag "a") (LoginPage r))
           = [Some "#"; Some "#"]
        /\ text_of (with_tag "p") (LoginPage r)
           = Some ["Ao continuar, você concorda com nossos"; " "; " "; "e"; " "; "."]).
Proof.
  split.
  - intros [] []. reflexivity.
  - intros r. repeat split.
Qed.

(** * Further properties of the form *)

(** ** Controlled inputs *)

(** X1: the three controls are controlled by the state.  An [onChange] of the
    email input stores the typed value in [email] alone and the input then
    displays it; likewise for the password input, and for the checkbox with
    [remember] and its [checked] prop.  What a user does reaches the handler
    only while the form is not loading. *)
Theorem controlled_inputs_round_trip (w : World) (v : string) (b : bool) :
  (deliver w (ChangeEmail v)
   = set_state (mkFormState (isLoading (state w)) v (password (state w)) (remember (state w))) w
   /\ shown_value "email" (view (deliver w (ChangeEmail v))) = Some v
   /\ step w (User (ChangeEmail v))
      = if isLoading (state w) then w else deliver w (ChangeEmail v))
  /\ (deliver w (ChangePassword v)
      = set_state (mkFormState (isLoading (state w)) (email (state w)) v (remember (state w))) w
      /\ shown_value "password" (view (deliver w (ChangePassword v))) = Some v
      /\ step w (User (ChangePassword v))
         = if isLoading (state w) then w else deliver w (ChangePassword v))
  /\ (shown_checked (view (deliver w (CheckedChange b))) = Some b
      /\ step w (User (CheckedChange b))
         = if isLoading (state w) then w else deliver w (CheckedChange b)).
Proof.
  split; [|split].
  - split; [apply deliver_change_email|]. split; [reflexivity|].
    cbn [step]. rewrite enabled_input by discriminate.
    now destruct (isLoading (state w)).
  - split; [apply deliver_change_password|]. split; [reflexivity|].
    cbn [step]. rewrite enabled_input by discriminate.
    now destruct (isLoading (state w)).
  - split; [reflexivity|].
    cbn [step]. rewrite enabled_input by discriminate.
    now destruct (isLoading (state w)).
Qed.

(** X2: what is sent is what is shown.  The credentials handed to the
    injected handler by a submit event are the value the email input
    displays, the value the password input displays and the checked state of
    the checkbox at that moment. *)
Theorem submitted_values_are_shown_values (w : World) (f : Handler) :
  onSubmit (props w) = Some f ->
  exists (e pw : string) (r : bool),
    shown_value "email" (view w) = Some e
    /\ shown_value "password" (view w) = Some pw
    /\ shown_checked (view w) = Some r
    /\ calls (deliver w Submit) = calls w ++ [(f, mkCredentials e pw r)].
Proof.
  intros Hsome.
  exists (email (state w)), (password (state w)), (remember (state w)).
  split; [reflexivity|]. split; [reflexivity|]. split; [reflexivity|].
  destruct (f (credentials_of (state w))) as [e|] eqn:Hf.
  - now rewrite (deliver_submit_throw w f e Hsome Hf).
  - now rewrite (deliver_submit_promise w f Hsome Hf).
Qed.

(** ** What a submission leaves alone *)

Lemma exec_navigations (m : Prog unit) :
  forall (w : World) (b : bool),
    navigations (fst (fst (exec m w b))) = navigations w.
Proof.
  induction m as [a|e|k IH|c k IH|v k IH|v k IH|c k IH|f data k IH|p k IH];
    intros w b; cbn [exec]; try reflexivity; try (rewrite IH; reflexivity).
  destruct (f data); rewrite IH; reflexivity.
Qed.

Lemma finish_navigations (w : World) (st : Status) :
  navigations (finish w st) = navigations w.
Proof. destruct st; reflexivity. Qed.

Lemma deliver_submit_prevented (w : World) : submit_prevented w = true.
Proof.
  unfold submit_prevented, view, LoginForm. cbn.
  destruct (onSubmit (props w)) as [f|]; [|reflexivity].
  cbn. destruct (f _); reflexivity.
Qed.

Lemma step_navigations (w : World) (ev : Event) :
  navigations (step w ev) = navigations w.
Proof.
  assert (Hd : forall d, navigations (deliver w d) = navigations w).
  { intros [v|v|b|]; try reflexivity. submit_cases w; reflexivity. }
  destruct ev as [d|d|p o|q]; cbn [step].
  - destruct (enabled (view w) d); [apply Hd|reflexivity].
  - apply Hd.
  - destruct (take p (waiting w)) as [[k tl]|]; [|reflexivity].
    pose proof (exec_navigations (k o) (set_waiting tl w) true) as He.
    destruct (exec (k o) (set_waiting tl w) true) as [[w' b'] st].
    cbn in He. now rewrite finish_navigations.
  - reflexivity.
Qed.

(** X3: the form never lets the browser navigate.  Every submit event is
    default-prevented when [handleSubmit] gives control back, with or
    without a handler and whatever the handler does, so no event of any kind
    adds a navigation, in any world. *)
Theorem form_never_navigates (p : LoginFormProps) (evs : list Event) :
  navigations (run p evs) = 0
  /\ submit_prevented (run p evs) = true
  /\ forall (w : World) (ev : Event), navigations (step w ev) = navigations w.
Proof.
  split; [|split; [apply deliver_submit_prevented|apply step_navigations]].
  unfold run. generalize (mount p) (eq_refl : navigations (mount p) = 0).
  induction evs as [|ev evs IH]; intros w Hw; [exact Hw|].
  cbn. apply IH. now rewrite step_navigations.
Qed.

(** X4: a submission does not clear or change the inputs.  The submit event
    and the later settlement of the handler's promise, fulfilled or rejected,
    leave [email], [password] and [remember] as they were. *)
Theorem submission_keeps_inputs
    (p0 : LoginFormProps) (evs : list Event) (p : Promise) (o : Outcome) :
  let w := run p0 evs in
  credentials_of (state (deliver w Submit)) = credentials_of (state w)
  /\ credentials_of (state (step w (User Submit))) = credentials_of (state w)
  /\ credentials_of (state (step w (Settle p o))) = credentials_of (state w).
Proof.
  intros w. pose proof (run_wf p0 evs) as Hwf. fold w in Hwf. clearbody w.
  assert (Hd : credentials_of (state (deliver w Submit)) = credentials_of (state w)).
  { submit_cases w; reflexivity. }
  split; [exact Hd|]. split.
  - cbn [step]. destruct (enabled (view w) Submit); [exact Hd|reflexivity].
  - destruct (in_dec Nat.eq_dec p (map fst (waiting w))) as [Hin|Hout].
    + destruct (take_some p (waiting w) Hwf Hin) as (tl & Htake & _).
      now rewrite (step_settle w p o tl Htake).
    + now rewrite (step_settle_none w p o (take_none p _ Hout)).
Qed.

(** ** When a user can submit *)

Lemma enabled_submit (w : World) :
  enabled (view w) Submit
  = negb (isLoading (state w))
    && negb (String.eqb (email (state w)) "")
    && email_syntax (email (state w))
    && negb (String.eqb (password (state w)) "").
Proof.
  unfold enabled, view. rewrite disabled_submit.
  unfold form_valid, LoginForm. cbn.
  destruct (isLoading (state w)); [reflexivity|]. cbn.
  destruct (String.eqb (email (state w)) ""); [reflexivity|]. cbn.
  destruct (email_syntax (email (state w))); [|reflexivity]. cbn.
  destruct (String.eqb (password (state w)) ""); reflexivity.
Qed.

(** X5: a user can submit exactly when the form is not loading, the email is
    not empty and passes the email syntax check of the browser, and the
    password is not empty (both inputs are [required], the first has type
    [email]); then the submit event reaches [handleSubmit], otherwise nothing
    happens at all. *)
Theorem user_submit_gate (w : World) :
  step w (User Submit)
  = if negb (isLoading (state w))
       && negb (String.eqb (email (state w)) "")
       && email_syntax (email (state w))
       && negb (String.eqb (password (state w)) "")
    then deliver w Submit
    else w.
Proof. cbn [step]. now rewrite enabled_submit. Qed.

(** ** Submissions that overlap *)

Lemma scripted_submits_from (f : Handler) (n : nat) :
  (forall c : Credentials, f c = None) ->
  forall w : World,
    onSubmit (props w) = Some f ->
    let w' := run_from w (repeat (Script Submit) n) in
    pending w' = pending w ++ seq (next_promise w) n
    /\ length (calls w') = length (calls w) + n
    /\ completions w' = completions w
    /\ (0 < n -> isLoading (state w') = true).
Proof.
  intros Hf. induction n as [|n IH]; intros w Hsome.
  - cbn. rewrite app_nil_r, Nat.add_0_r. repeat split. intros H. inversion H.
  - cbn [repeat run_from fold_left step]. fold (run_from (deliver w Submit) (repeat (Script Submit) n)).
    rewrite (deliver_submit_promise w f Hsome (Hf _)).
    set (w1 := set_waiting _ _).
    assert (Hsome1 : onSubmit (props w1) = Some f) by exact Hsome.
    destruct (IH w1 Hsome1) as (Hp & Hc & Hcompl & Hl).
    cbv zeta in *. rewrite Hp, Hc, Hcompl. unfold w1 at 1 2 3 4. unfold pending. cbn.
    rewrite map_app, <- app_assoc, length_app. cbn. repeat split; try lia.
    intros _. destruct n as [|n]; [reflexivity|]. apply Hl. lia.
Qed.

(** X6: [handleSubmit] does not look at [isLoading].  With a handler whose
    promises stay pending, [n] submit events dispatched from code start [n]
    calls, all pending at once; none has completed, and the form is loading
    as soon as there is one. *)
Theorem scripted_submits_all_pending (p : LoginFormProps) (f : Handler) (n : nat) :
  onSubmit p = Some f ->
  (forall c : Credentials, f c = None) ->
  let w := run p (repeat (Script Submit) n) in
  pending w = seq 0 n
  /\ length (calls w) = n
  /\ completions w = []
  /\ (0 < n -> isLoading (state w) = true).
Proof.
  intros Hsome Hf.
  exact (scripted_submits_from f n Hf (mount p) Hsome).
Qed.

(** ** Every submission is accounted for *)

Lemma deliver_submit_accounted (w : World) :
  length (completions (deliver w Submit)) + length (waiting (deliver w Submit))
  = S (length (completions w) + length (waiting w))
  /\ length (calls (deliver w Submit)) <= S (length (calls w)).
Proof.
  submit_cases w; cbn; rewrite ?length_app; cbn; lia.
Qed.

Lemma deliver_input_accounted (w : World) (d : Dom) :
  d <> Submit ->
  completions (deliver w d) = completions w
  /\ waiting (deliver w d) = waiting w
  /\ calls (deliver w d) = calls w.
Proof. destruct d; intros Hd; try congruence; repeat split. Qed.

Lemma step_accounted (w : World) (ev : Event) :
  wf w ->
  length (completions (step w ev)) + length (waiting (step w ev))
  = length (completions w) + length (waiting w) + (if submits w ev then 1 else 0)
  /\ length (calls (step w ev)) <= length (calls w) + (if submits w ev then 1 else 0).
Proof.
  intros Hwf. destruct ev as [d|d|p o|q].
  - cbn [step submits]. destruct d;
      try (destruct (enabled (view w) _); cbn; lia).
    destruct (enabled (view w) Submit).
    + pose proof (deliver_submit_accounted w). lia.
    + lia.
  - cbn [step submits]. destruct d; try (cbn; lia).
    pose proof (deliver_submit_accounted w). lia.
  - cbn [submits]. destruct (in_dec Nat.eq_dec p (map fst (waiting w))) as [Hin|Hout].
    + destruct (take_some p (waiting w) Hwf Hin) as (tl & Htake & _ & Hlen).
      rewrite (step_settle w p o tl Htake). cbn. rewrite length_app, Hlen. cbn. lia.
    + rewrite (step_settle_none w p o (take_none p _ Hout)). lia.
  - cbn. lia.
Qed.

Lemma run_from_accounted (evs : list Event) :
  forall w : World,
    wf w ->
    length (completions (run_from w evs)) + length (waiting (run_from w evs))
    = length (completions w) + length (waiting w) + submissions w evs
    /\ length (calls (run_from w evs)) <= length (calls w) + submissions w evs.
Proof.
  induction evs as [|ev evs IH]; intros w Hwf.
  - cbn. lia.
  - cbn [run_from fold_left submissions]. fold (run_from (step w ev) evs).
    destruct (IH (step w ev) (step_wf w ev Hwf)) as [H1 H2].
    destruct (step_accounted w ev Hwf) as [H3 H4]. lia.
Qed.

(** X7: every submit event that reaches [handleSubmit] gives one promise, and
    each such promise is either still pending or has settled exactly once:
    along any run the settled and the pending ones add up to the submit
    events delivered.  The injected handler is called at most once per
    delivered submit event. *)
Theorem every_submission_accounted (p : LoginFormProps) (evs : list Event) :
  length (completions (run p evs)) + length (pending (run p evs))
  = submissions (mount p) evs
  /\ length (calls (run p evs)) <= submissions (mount p) evs.
Proof.
  assert (Hlen : length (pending (run p evs)) = length (waiting (run p evs)))
    by apply length_map.
  rewrite Hlen. clear Hlen.
  assert (Hwf : wf (mount p)) by constructor.
  destruct (run_from_accounted evs (mount p) Hwf) as [H1 H2].
  unfold run.
  change (length (completions (mount p))) with 0 in H1.
  change (length (waiting (mount p))) with 0 in H1.
  change (length (calls (mount p))) with 0 in H2.
  lia.
Qed.

(** ** The values of a pending submission *)

Lemma run_from_submitted (evs : list Event) :
  forall w : World,
    forallb user_driven evs = true ->
    wf w ->
    (isLoading (state w) = true ->
     exists l f, calls w = l ++ [(f, credentials_of (state w))]) ->
    isLoading (state (run_from w evs)) = true ->
    exists l f,
      calls (run_from w evs) = l ++ [(f, credentials_of (state (run_from w evs)))].
Proof.
  induction evs as [|ev evs IH]; intros w Hall Hwf Hw; [exact Hw|].
  cbn in Hall. apply andb_true_iff in Hall as [Hev Hall].
  cbn [run_from fold_left]. apply IH; [exact Hall|now apply step_wf|].
  clear IH Hall. destruct ev as [d|d|p o|q]; [|discriminate Hev| |exact Hw].
  - cbn [step]. destruct (isLoading (state w)) eqn:Hl.
    + now rewrite (enabled_while_loading w d Hl), Hl.
    + destruct (enabled (view w) d); [|now rewrite Hl].
      destruct d; try (cbn; rewrite Hl; discriminate).
      submit_cases w; try (cbn; discriminate).
      intros _. now exists (calls w), f.
  - destruct (in_dec Nat.eq_dec p (map fst (waiting w))) as [Hin|Hout].
    + destruct (take_some p (waiting w) Hwf Hin) as (tl & Htake & _).
      rewrite (step_settle w p o tl Htake). cbn. discriminate.
    + now rewrite (step_settle_none w p o (take_none p _ Hout)).
Qed.

(** X9: while a submission is pending the inputs still hold what was
    submitted.  As long as events come from the user, from settling promises
    and from the parent, whenever a promise of the handler is pending the
    last call of the handler was made on the values the inputs hold now. *)
Theorem pending_values_are_submitted_values (p0 : LoginFormProps) (evs : list Event) :
  forallb user_driven evs = true ->
  pending (run p0 evs) <> [] ->
  exists (l : list (Handler * Credentials)) (f : Handler),
    calls (run p0 evs) = l ++ [(f, credentials_of (state (run p0 evs)))].
Proof.
  intros Hall Hp.
  apply (run_from_submitted evs (mount p0) Hall).
  - constructor.
  - discriminate.
  - destruct (run_serialized p0 evs Hall) as [[_ Hw]|[Hl _]]; [|exact Hl].
    unfold pending in Hp. unfold run in Hw. fold (run p0 evs) in Hw.
    rewrite Hw in Hp. now contradiction Hp.
Qed.

(** ** The form on the login page *)

Lemma run_from_no_handler (evs : list Event) :
  forall w : World,
    forallb (fun ev => negb (is_rerender ev)) evs = true ->
    onSubmit (props w) = None ->
    calls w = [] -> waiting w = [] -> isLoading (state w) = false ->
    Forall (fun c => c = (Fulfilled, false)) (completions w) ->
    let w' := run_from w evs in
    calls w' = [] /\ waiting w' = [] /\ isLoading (state w') = false
    /\ Forall (fun c => c = (Fulfilled, false)) (completions w').
Proof.
  induction evs as [|ev evs IH]; intros w Hall Hnone Hc Hw Hl Hf; [now repeat split|].
  cbn in Hall. apply andb_true_iff in Hall as [Hev Hall].
  cbn [run_from fold_left]. cbv zeta.
  assert (Hd : forall d, onSubmit (props (deliver w d)) = None
                         /\ calls (deliver w d) = [] /\ waiting (deliver w d) = []
                         /\ isLoading (state (deliver w d)) = false
                         /\ Forall (fun c => c = (Fulfilled, false)) (completions (deliver w d))).
  { intros [v|v|b|]; try (now repeat split).
    rewrite (deliver_submit_none w Hnone). repeat split; auto.
    cbn. apply Forall_app. split; [exact Hf|]. now constructor. }
  destruct ev as [d|d|p o|q]; [| | |discriminate Hev].
  - cbn [step]. destruct (enabled (view w) d).
    + destruct (Hd d) as (H1 & H2 & H3 & H4 & H5). now apply IH.
    + now apply IH.
  - cbn [step]. destruct (Hd d) as (H1 & H2 & H3 & H4 & H5). now apply IH.
  - rewrite step_settle_none; [now apply IH|]. now rewrite Hw.
Qed.

(** X10: the login page mounts the form without an [onSubmit], and the page
    never renders it with other props.  So on the page no event, from a user
    or from code, calls a handler, leaves a promise pending or leaves the
    form loading: each submit event that reaches [handleSubmit] completes at
    once, fulfilled, with [isLoading] false. *)
Theorem login_page_form_calls_nothing
    (r : unit) (p : LoginFormProps) (evs : list Event) :
  page_form_props r = Some p ->
  forallb (fun ev => negb (is_rerender ev)) evs = true ->
  let w := run p evs in
  onSubmit p = None
  /\ calls w = []
  /\ pending w = []
  /\ isLoading (state w) = false
  /\ Forall (fun c => c = (Fulfilled, false)) (completions w)
  /\ length (completions w) = submissions (mount p) evs.
Proof.
  intros Hp Hall w. unfold page_form_props in Hp. cbn in Hp.
  injection Hp as <-. split; [reflexivity|].
  destruct (run_from_no_handler evs (mount (mkProps None None [])) Hall
              eq_refl eq_refl eq_refl eq_refl (Forall_nil _))
    as (Hc & Hw & Hl & Hf).
  fold (run (mkProps None None []) evs) in Hc, Hw, Hl, Hf. fold w in Hc, Hw, Hl, Hf.
  split; [exact Hc|]. split; [unfold pending; now rewrite Hw|].
  split; [exact Hl|]. split; [exact Hf|].
  destruct (run_from_accounted evs (mount (mkProps None None [])) (Forall_nil _)) as [H1 _].
  fold (run (mkProps None None []) evs) in H1. fold w in H1. clearbody w.
  rewrite Hw in H1.
  change (length (completions (mount (mkProps None None [])))) with 0 in H1.
  change (length (waiting (mount (mkProps None None [])))) with 0 in H1.
  cbn [length] in H1. lia.
Qed.

End Model.

Arguments Fulfilled {Reason}.
Arguments Rejected {Reason} e.
Arguments User {Reason} d.
Arguments Script {Reason} d.
Arguments Settle {Reason} p o.
Arguments Rerender {Reason} p.
Arguments mkProps {Reason} className onSubmit rest.
Arguments onSubmit {Reason} l.
Arguments props {Reason} w.
Arguments state {Reason} w.
Arguments calls {Reason} w.
Arguments completions {Reason} w.
Arguments navigations {Reason} w.
Arguments mount {Reason} p.
Arguments pending {Reason} w.
Arguments submit_prevented {Reason} cn w.
Arguments view {Reason} cn w.
Arguments deliver {Reason} cn w d.
Arguments step {Reason} cn email_syntax w ev.
Arguments run_from {Reason} cn email_syntax w evs.
Arguments run {Reason} cn email_syntax p evs.
Arguments user_driven {Reason} ev.
Arguments submit_button {Reason} _ _.
Arguments text_of {Reason} pred e.

(** * Concrete runs *)

Module Sample.

(** Rejection reasons are messages here. *)
Definition Reason : Type := string.

(** A [cn] that joins the two class names with a space. *)
Definition cn (base : string) (extra : option string) : string :=
  match extra with
  | Some c => String.append base (String.append " " c)
  | None => base
  end.

(** An email syntax check that asks for an [@]. *)
Definition email_syntax (v : string) : bool :=
  match index 0 "@" v with
  | Some _ => true
  | None => false
  end.

(** A handler whose promise stays pending until the environment settles it. *)
Definition slow : Handler Reason := fun _ => None.

(** A handler that throws before it returns. *)
Definition broken : Handler Reason := fun _ => Some "offline".

Definition form (h : option (Handler Reason)) : LoginFormProps Reason :=
  mkProps None h [].

Definition fill_and_submit : list (Event Reason) :=
  [User (ChangeEmail "a@b.com"); User (ChangePassword "secret");
   User (CheckedChange true); User Submit].

Definition data : Credentials := mkCredentials "a@b.com" "secret" true.

End Sample.

Lemma submit_calls_handler_once_witness :
  onSubmit (props (run Sample.cn Sample.email_syntax (Sample.form (Some Sample.slow))
                     [User (ChangeEmail "a@b.com")]))
  = Some Sample.slow
  /\ calls (deliver Sample.cn
              (run Sample.cn Sample.email_syntax (Sample.form (Some Sample.slow))
                 [User (ChangeEmail "a@b.com")])
              Submit)
     = [(Sample.slow, mkCredentials "a@b.com" "" false)].
Proof.
  split; [reflexivity|].
  exact (proj1 (submit_calls_handler_once Sample.Reason Sample.cn Sample.email_syntax
                  (Sample.form (Some Sample.slow)) [User (ChangeEmail "a@b.com")]
                  Sample.slow eq_refl)).
Defined.


Lemma rejection_propagates_after_reset_witness :
  In 0 (pending (run Sample.cn Sample.email_syntax (Sample.form (Some Sample.slow))
                   Sample.fill_and_submit))
  /\ completions (step Sample.cn Sample.email_syntax
                    (run Sample.cn Sample.email_syntax (Sample.form (Some Sample.slow))
                       Sample.fill_and_submit)
                    (Settle 0 (Rejected "denied")))
     = [(Rejected "denied", false)]
  /\ Sample.broken (mkCredentials "" "" false) = Some "offline"
  /\ completions (deliver Sample.cn (mount (Sample.form (Some Sample.broken))) Submit)
     = [(Rejected "offline", false)].
Proof.
  split; [left; reflexivity|]. split.
  - exact (proj1 (proj1 (rejection_propagates_after_reset Sample.Reason Sample.cn
                           Sample.email_syntax (Sample.form (Some Sample.slow))
                           Sample.fill_and_submit "denied")
                    0 (or_introl eq_refl))).
  - split; [reflexivity|].
    exact (proj1 (proj2 (rejection_propagates_after_reset Sample.Reason Sample.cn
                           Sample.email_syntax (Sample.form (Some Sample.broken))
                           [] "offline")
                    Sample.broken eq_refl eq_refl)).
Defined.

Lemma submit_without_handler_witness :
  onSubmit (props (mount (Sample.form None))) = None
  /\ submit_prevented Sample.cn (mount (Sample.form None)) = true
  /\ navigations (deliver Sample.cn (mount (Sample.form None)) Submit) = 0
  /\ completions (deliver Sample.cn (mount (Sample.form None)) Submit) = [(Fulfilled, false)].
Proof.
  split; [reflexivity|].
  pose proof (submit_without_handler Sample.Reason Sample.cn (mount (Sample.form None)) eq_refl)
    as H.
  split; [exact (proj1 H)|]. split; [exact (proj1 (proj2 H))|].
  exact (proj1 (proj2 (proj2 H))).
Defined.


Lemma login_scenario_witness :
  onSubmit (Sample.form (Some Sample.slow)) = Some Sample.slow
  /\ Sample.slow Sample.data = None
  /\ Sample.email_syntax "a@b.com" = true
  /\ calls (run Sample.cn Sample.email_syntax (Sample.form (Some Sample.slow))
              Sample.fill_and_submit)
     = [(Sample.slow, Sample.data)]
  /\ text_of submit_button
       (view Sample.cn
          (run Sample.cn Sample.email_syntax (Sample.form (Some Sample.slow))
             (Sample.fill_and_submit ++ [User Submit; User (ChangeEmail "x")])))
     = Some ["Entrando..."]
  /\ text_of submit_button
       (view Sample.cn
          (run Sample.cn Sample.email_syntax (Sample.form (Some Sample.slow))
             (Sample.fill_and_submit ++ [Settle 0 Fulfilled])))
     = Some ["Entrar"].
Proof.
  split; [reflexivity|]. split; [reflexivity|]. split; [reflexivity|].
  pose proof (login_scenario Sample.Reason Sample.cn Sample.email_syntax
                (Sample.form (Some Sample.slow)) Sample.slow eq_refl eq_refl eq_refl) as H.
  split; [exact (proj1 (proj2 (proj2 H)))|]. split.
  - exact (proj1 (proj1 (proj2 (proj2 (proj2 (proj2 H)))) [Submit; ChangeEmail "x"])).
  - exact (proj1 (proj2 (proj2 (proj2 (proj2 (proj2 H)))) [])).
Defined.

Lemma initial_state_and_submit_witness :
  onSubmit (Sample.form (Some Sample.slow)) = Some Sample.slow
  /\ state (mount (Sample.form (Some Sample.slow))) = mkFormState false "" "" false
  /\ calls (deliver Sample.cn (mount (Sample.form (Some Sample.slow))) Submit)
     = [(Sample.slow, mkCredentials "" "" false)].
Proof.
  split; [reflexivity|].
  pose proof (initial_state_and_submit Sample.Reason Sample.cn Sample.email_syntax
                (Sample.form (Some Sample.slow)) Sample.slow eq_refl) as H.
  split; [exact (proj1 H)|exact (proj1 (proj2 (proj2 H)))].
Defined.

Lemma submitted_values_are_shown_values_witness :
  onSubmit (props (run Sample.cn Sample.email_syntax (Sample.form (Some Sample.slow))
                     [User (ChangeEmail "a@b.com"); User (CheckedChange true)]))
  = Some Sample.slow
  /\ exists (e pw : string) (r : bool),
       shown_value Sample.Reason "email"
         (view Sample.cn
            (run Sample.cn Sample.email_syntax (Sample.form (Some Sample.slow))
               [User (ChangeEmail "a@b.com"); User (CheckedChange true)])) = Some e
       /\ shown_value Sample.Reason "password"
            (view Sample.cn
               (run Sample.cn Sample.email_syntax (Sample.form (Some Sample.slow))
                  [User (ChangeEmail "a@b.com"); User (CheckedChange true)])) = Some pw
       /\ shown_checked Sample.Reason
            (view Sample.cn
               (run Sample.cn Sample.email_syntax (Sample.form (Some Sample.slow))
                  [User (ChangeEmail "a@b.com"); User (CheckedChange true)])) = Some r
       /\ calls (deliver Sample.cn
                   (run Sample.cn Sample.email_syntax (Sample.form (Some Sample.slow))
                      [User (ChangeEmail "a@b.com"); User (CheckedChange true)])
                   Submit)
          = [] ++ [(Sample.slow, mkCredentials e pw r)].
Proof.
  split; [reflexivity|].
  exact (submitted_values_are_shown_values Sample.Reason Sample.cn
           (run Sample.cn Sample.email_syntax (Sample.form (Some Sample.slow))
              [User (ChangeEmail "a@b.com"); User (CheckedChange true)])
           Sample.slow eq_refl).
Defined.

Lemma scripted_submits_all_pending_witness :
  onSubmit (Sample.form (Some Sample.slow)) = Some Sample.slow
  /\ (forall c : Credentials, Sample.slow c = None)
  /\ 0 < 3
  /\ pending (run Sample.cn Sample.email_syntax (Sample.form (Some Sample.slow))
                (repeat (Script Submit) 3))
     = [0; 1; 2]
  /\ isLoading (state (run Sample.cn Sample.email_syntax (Sample.form (Some Sample.slow))
                         (repeat (Script Submit) 3)))
     = true.
Proof.
  split; [reflexivity|]. split; [intros c; reflexivity|]. split; [lia|].
  pose proof (scripted_submits_all_pending Sample.Reason Sample.cn Sample.email_syntax
                (Sample.form (Some Sample.slow)) Sample.slow 3 eq_refl
                (fun _ => eq_refl)) as H.
  split; [exact (proj1 H)|].
  apply (proj2 (proj2 (proj2 H))). lia.
Defined.

Lemma pending_values_are_submitted_values_witness :
  forallb user_driven (Sample.fill_and_submit ++ [User (ChangeEmail "x@y.z")]) = true
  /\ pending (run Sample.cn Sample.email_syntax (Sample.form (Some Sample.slow))
                (Sample.fill_and_submit ++ [User (ChangeEmail "x@y.z")]))
     <> []
  /\ exists (l : list (Handler Sample.Reason * Credentials)) (f : Handler Sample.Reason),
       calls (run Sample.cn Sample.email_syntax (Sample.form (Some Sample.slow))
                (Sample.fill_and_submit ++ [User (ChangeEmail "x@y.z")]))
       = l ++ [(f, credentials_of
                     (state (run Sample.cn Sample.email_syntax
                               (Sample.form (Some Sample.slow))
                               (Sample.fill_and_submit ++ [User (ChangeEmail "x@y.z")]))))].
Proof.
  split; [reflexivity|]. split; [discriminate|].
  apply (pending_values_are_submitted_values Sample.Reason Sample.cn Sample.email_syntax
           (Sample.form (Some Sample.slow))
           (Sample.fill_and_submit ++ [User (ChangeEmail "x@y.z")]) eq_refl).
  discriminate.
Defined.

Lemma login_page_form_calls_nothing_witness :
  page_form_props Sample.Reason tt = Some (Sample.form None)
  /\ forallb (fun ev => negb (is_rerender Sample.Reason ev))
       (Sample.fill_and_submit ++ [Script Submit]) = true
  /\ calls (run Sample.cn Sample.email_syntax (Sample.form None)
              (Sample.fill_and_submit ++ [Script Submit])) = []
  /\ length (completions (run Sample.cn Sample.email_syntax (Sample.form None)
                            (Sample.fill_and_submit ++ [Script Submit]))) = 2.
Proof.
  split; [reflexivity|]. split; [reflexivity|].
  pose proof (login_page_form_calls_nothing Sample.Reason Sample.cn Sample.email_syntax
                tt (Sample.form None) (Sample.fill_and_submit ++ [Script Submit])
                eq_refl eq_refl) as H.
  split; [exact (proj1 (proj2 H))|].
  exact (proj2 (proj2 (proj2 (proj2 (proj2 H))))).
Defined.

(** * Submissions dispatched from code *)


